(** * biothings.web.api.es.handlers.base_handler

    A shallow embedding of the Elasticsearch request handlers of
    [biothings/web/api/es/handlers/base_handler.py]: the error formatter
    [BaseESRequestHandler.write_error], the option cleaner
    [ESRequestHandler.get_cleaned_options] and the query pipeline
    [ESRequestHandler.execute_pipeline] with its default hooks. *)

From stdpp Require Import gmap strings list fin_maps.
From Stdlib Require Import ZArith String Ascii.

Local Open Scope string_scope.
Local Open Scope Z_scope.

Set Warnings "-register-all".

(** ** Python values *)

(** The values the parameter layer puts into an option bag: [None],
    booleans, integers, strings and lists of those. *)
Inductive pyval : Type :=
  | VNone
  | VBool (b : bool)
  | VInt (z : Z)
  | VStr (s : string)
  | VList (l : list pyval).

(** The exceptions the modelled code raises by itself. *)
Inductive pyexn : Type :=
  | TypeError
  | AssertionError.

(** A computation that returns or raises. *)
Inductive result (A : Type) : Type :=
  | Ok (a : A)
  | Raise (e : pyexn).
Arguments Ok {A} a.
Arguments Raise {A} e.

#[global] Instance result_ret : MRet result := fun A a => Ok a.

#[global] Instance result_bind : MBind result := fun A B k r =>
  match r with
  | Ok a => k a
  | Raise e => Raise e
  end.

(** [bool(v)]: the truth value Python gives [v] in [if v], [not v] and
    [v or w]. *)
Definition py_truthy (v : pyval) : bool :=
  match v with
  | VNone => false
  | VBool b => b
  | VInt z => negb (z =? 0)
  | VStr s => negb (String.eqb s "")
  | VList l => match l with [] => false | _ :: _ => true end
  end.

(** [v or w] *)
Definition py_or (v w : pyval) : pyval :=
  if py_truthy v then v else w.

(** [sub in s] on two strings: [sub] occurs in [s] as a substring. *)
Fixpoint str_contains (sub s : string) : bool :=
  String.prefix sub s ||
  match s with
  | EmptyString => false
  | String _ s' => str_contains sub s'
  end.

(** [x == VStr needle] for a string [needle]: a string equals only an
    equal string. *)
Definition py_eq_str (needle : string) (x : pyval) : bool :=
  match x with
  | VStr s => String.eqb needle s
  | _ => false
  end.

(** [needle in v] for a string [needle]: substring test on a string,
    element test on a list, [TypeError] (argument is not iterable) on
    [None], booleans and integers. *)
Definition py_in (needle : string) (v : pyval) : result bool :=
  match v with
  | VStr s => Ok (str_contains needle s)
  | VList l => Ok (existsb (py_eq_str needle) l)
  | VNone | VBool _ | VInt _ => Raise TypeError
  end.

(** [iter(v)] run to its end: the items a [for] loop over [v] sees; a
    string yields its characters, [None], booleans and integers are not
    iterable. *)
Definition py_iter (v : pyval) : result (list pyval) :=
  match v with
  | VList l => Ok l
  | VStr s => Ok (map (fun c => VStr (String c EmptyString)) (list_ascii_of_string s))
  | VNone | VBool _ | VInt _ => Raise TypeError
  end.

(** ** Option sets *)

(** What the transform stage holds after cleaning: an option value, a
    template dictionary, or the generator of per-item templates, written
    as the list of the dictionaries it yields, in order. *)
Inductive tval : Type :=
  | TVal (v : pyval)
  | TDict (d : gmap string pyval)
  | TGen (items : list (gmap string pyval)).

(** Modelled from the spec: the option bag class [dotdict] of
    [biothings.utils.common] is not among the sources.  A stage is a mapping
    from option name to value; reading an option that is absent gives
    [None]; assigning an attribute stores under that key. *)
Definition getattr (d : gmap string pyval) (k : string) : pyval :=
  default VNone (d !! k).

(** [d.pop(k, None)] with the result thrown away. *)
Definition pop (k : string) (d : gmap string pyval) : gmap string pyval :=
  delete k d.

(** The grouped options of [ESRequestHandler]: one mapping per declared
    stage, [kwarg_types = ('control', 'esqb', 'es', 'transform')]. *)
Record OptionSet : Type := mkOptions {
  control : gmap string pyval;
  esqb : gmap string pyval;
  es : gmap string pyval;
  transform : gmap string tval
}.

(** ** [ESRequestHandler.get_cleaned_options] *)

(** ESQB stage: [facet_size] is only relevant for aggregations. *)
Definition clean_esqb (q : gmap string pyval) : gmap string pyval :=
  if negb (py_truthy (getattr q "aggs")) then pop "facet_size" q else q.

(** ES stage, first rule: no sorting when scrolling. *)
Definition clean_fetch_all (e : gmap string pyval) : gmap string pyval :=
  if py_truthy (getattr e "fetch_all") then pop "size" (pop "sort" e) else e.

(** ES stage, second rule: [fields=all] returns all fields.  The filter that
    [pop('_source')] removes is not [None], so its key is there. *)
Definition clean_source (e : gmap string pyval) : result (gmap string pyval) :=
  match getattr e "_source" with
  | VNone => Ok e
  | src =>
      if negb (py_truthy src) then Ok (delete "_source" e)
      else
        has_all ← py_in "all" src;
        if (has_all : bool) then Ok (<["_source" := VBool true]> e) else Ok e
  end.

(** The terms a POST echoes: [options.esqb.ids or options.esqb.q]. *)
Definition queries (q : gmap string pyval) : pyval :=
  py_or (getattr q "ids") (getattr q "q").

(** [dict(query=q)] *)
Definition template (q : pyval) : gmap string pyval := {["query" := q]}.

(** Transform stage: the biothing type, and for a POST the original query
    terms. *)
Definition clean_transform (method biothing_type : string)
    (q : gmap string pyval) (t : gmap string tval) : result (gmap string tval) :=
  let t1 := <["biothing_type" := TVal (VStr biothing_type)]> t in
  if String.eqb method "POST" then
    items ← py_iter (queries q);
    Ok (<["template_hit" := TDict ∅]>
        (<["template_miss" := TDict {["notfound" := VBool true]}]>
         (<["templates" := TGen (map template items)]> t1)))
  else Ok t1.

Definition get_cleaned_options (method biothing_type : string)
    (options : OptionSet) : result OptionSet :=
  let q := clean_esqb (esqb options) in
  e ← clean_source (clean_fetch_all (es options));
  t ← clean_transform method biothing_type q (transform options);
  Ok {| control := control options; esqb := q; es := e; transform := t |}.

(** The source filter has the type the parameter layer declares for it: it
    is not given, or it is a list of field names (a string is searched the
    same way). *)
Definition source_is_selection (e : gmap string pyval) : bool :=
  match getattr e "_source" with
  | VNone | VList _ | VStr _ => true
  | VBool _ | VInt _ => false
  end.

(** A POST comes with a batch that can be iterated. *)
Definition carries_batch (method : string) (q : gmap string pyval) : bool :=
  if String.eqb method "POST"
  then match py_iter (queries q) with Ok _ => true | Raise _ => false end
  else true.

(** The cleaned source filter is the boolean [True]. *)
Definition source_is_true (e : gmap string pyval) : bool :=
  match e !! "_source" with
  | Some (VBool true) => true
  | _ => false
  end.

(** The fixed points of the first ES rule. *)
Definition unsorted (e : gmap string pyval) : Prop :=
  py_truthy (getattr e "fetch_all") = true -> e !! "sort" = None ∧ e !! "size" = None.

(** ** [BaseESRequestHandler.write_error] *)

(** The line feed, Python's ['\n']. *)
Definition LF : string := String (ascii_of_nat 10) EmptyString.

(** Modelled from the spec: the exception class [BadRequest] of
    [biothings.web.api.helper] is not among the sources.  It is the
    recognized bad request kind, carrying structured extra detail as a
    mapping of extra key/value pairs ([exception.kwargs]); every other
    exception is [OtherException]. *)
Inductive exception : Type :=
  | BadRequest (kwargs : gmap string pyval)
  | OtherException.

(** The keyword arguments [write_error] looks at: [reason], the message of
    the error when it has one, and [exc_info], of which only the exception
    [exc_info[1]] is read. *)
Record error_kwargs : Type := mkErrorKwargs {
  kw_reason : option string;
  kw_exc_info : option exception
}.

(** The three keys every envelope starts from. *)
Definition base_message (status_code : Z) (reason : string) : gmap string pyval :=
  {["code" := VInt status_code; "success" := VBool false; "error" := VStr reason]}.

(** [message.update(extra)]: the pairs of [extra] are stored into [message],
    over what is there. *)
Definition update (message extra : gmap string pyval) : gmap string pyval :=
  extra ∪ message.

(** [write_error(status_code, **kwargs)] on a handler whose [_reason] is
    [self_reason]; the result is the message handed to [self.finish]. *)
Definition write_error (self_reason : string) (status_code : Z)
    (kwargs : error_kwargs) : result (gmap string pyval) :=
  let reason := default self_reason (kw_reason kwargs) in
  if str_contains LF reason then Raise AssertionError
  else
    let message := base_message status_code reason in
    match kw_exc_info kwargs with
    | Some (BadRequest extra) =>
        if bool_decide (extra ≠ ∅) then Ok (update message extra) else Ok message
    | Some OtherException | None => Ok message
    end.

(** The structured detail [write_error] merges: the [kwargs] of a
    [BadRequest], nothing for any other error. *)
Definition detail (kwargs : error_kwargs) : gmap string pyval :=
  match kw_exc_info kwargs with
  | Some (BadRequest extra) => extra
  | Some OtherException | None => ∅
  end.

(** ** [ESRequestHandler.execute_pipeline] *)

Section Pipeline.

(** The collaborators of the handler, [web_settings.query_builder],
    [web_settings.query_backend] and [web_settings.query_transform]: a
    query type with its [to_dict], the payloads handed to [finish] (the
    backend's raw result is one), and the errors the collaborators raise. *)
Variables Query Payload Err : Type.
Variable to_dict : Query -> Payload.
Variable build : gmap string pyval -> Err + Query.
Variable execute : Query -> gmap string pyval -> string -> Err + Payload.
Variable transform_result : Payload -> gmap string tval -> Err + Payload.

(** What a run does to the outside: each call of a collaborator with its
    arguments and outcome, and each call of [self.finish]. *)
Inductive event : Type :=
  | EBuild (opts : gmap string pyval) (out : Err + Query)
  | EExecute (q : Query) (opts : gmap string pyval) (biothing_type : string)
      (out : Err + Payload)
  | ETransform (res : Payload) (opts : gmap string tval) (out : Err + Payload)
  | EFinish (chunk : Payload).

(** What leaves a handler method other than a return value: tornado's
    [Finish] with its payload, an exception of the handler's own code, or
    an exception of a collaborator. *)
Inductive raised : Type :=
  | Finish (chunk : Payload)
  | Own (e : pyexn)
  | Theirs (e : Err).

Inductive step (A : Type) : Type :=
  | Return (a : A)
  | Raised (x : raised).
Arguments Return {A} a.
Arguments Raised {A} x.

(** A handler computation: the events so far and how it went on. *)
Definition pipe (A : Type) : Type := (list event * step A)%type.

#[local] Instance pipe_ret : MRet pipe := fun A a => ([], Return a).

#[local] Instance pipe_bind : MBind pipe := fun A B k m =>
  match m with
  | (tr, Return a) => let '(tr', r) := k a in ((tr ++ tr')%list, r)
  | (tr, Raised x) => (tr, Raised x)
  end.

Definition raise {A} (x : raised) : pipe A := ([], Raised x).

Definition emit (ev : event) : pipe unit := ([ev], Return tt).

(** A call of a collaborator: logged, then its value or its exception. *)
Definition call {A} (log : Err + A -> event) (out : Err + A) : pipe A :=
  _ ← emit (log out);
  match out with
  | inr a => mret a
  | inl e => raise (Theirs e)
  end.

Definition lift_result {A} (r : result A) : pipe A :=
  match r with
  | Ok a => mret a
  | Raise e => raise (Own e)
  end.

Definition pre_query_builder_hook (options : OptionSet) : pipe OptionSet :=
  mret options.

Definition pre_query_hook (options : OptionSet) (query : Query) : pipe Query :=
  if py_truthy (getattr (control options) "rawquery")
  then raise (Finish (to_dict query))
  else mret query.

Definition pre_transform_hook (options : OptionSet) (res : Payload) : pipe Payload :=
  if py_truthy (getattr (control options) "raw")
  then raise (Finish res)
  else mret res.

Definition pre_finish_hook (options : OptionSet) (res : Payload) : pipe Payload :=
  mret res.

Definition execute_pipeline (method biothing_type : string)
    (grouped_options : OptionSet) : pipe unit :=
  options ← lift_result (get_cleaned_options method biothing_type grouped_options);
  options ← pre_query_builder_hook options;
  _query ← call (EBuild (esqb options)) (build (esqb options));
  _query ← pre_query_hook options _query;
  res ← call (EExecute _query (es options) biothing_type)
             (execute _query (es options) biothing_type);
  res ← pre_transform_hook options res;
  res ← call (ETransform res (transform options))
             (transform_result res (transform options));
  res ← pre_finish_hook options res;
  emit (EFinish res).

(** [get] and [post] both run the pipeline; around them tornado turns a
    [Finish] that carries a payload into [self.finish(payload)] and leaves
    every other exception to the error path. *)
Definition run_request (method biothing_type : string)
    (grouped_options : OptionSet) : pipe unit :=
  match execute_pipeline method biothing_type grouped_options with
  | (tr, Raised (Finish chunk)) => ((tr ++ [EFinish chunk])%list, Return tt)
  | other => other
  end.

(** The events of a run and the response bodies it emitted. *)
Definition trace (method biothing_type : string) (o : OptionSet) : list event :=
  fst (run_request method biothing_type o).

Definition emitted (tr : list event) : list Payload :=
  omap (fun ev => match ev with EFinish chunk => Some chunk | _ => None end) tr.

Definition is_execute (ev : event) : bool :=
  match ev with EExecute _ _ _ _ => true | _ => false end.

Definition is_transform (ev : event) : bool :=
  match ev with ETransform _ _ _ => true | _ => false end.

End Pipeline.

Arguments EBuild {Query Payload Err} opts out.
Arguments EExecute {Query Payload Err} q opts biothing_type out.
Arguments ETransform {Query Payload Err} res opts out.
Arguments EFinish {Query Payload Err} chunk.
Arguments Finish {Payload Err} chunk.
Arguments Own {Payload Err} e.
Arguments Theirs {Payload Err} e.
Arguments Return {Payload Err A} a.
Arguments Raised {Payload Err A} x.
Arguments trace {Query Payload Err} to_dict build execute transform_result
  method biothing_type o.
Arguments emitted {Query Payload Err} tr.
Arguments is_execute {Query Payload Err} ev.
Arguments is_transform {Query Payload Err} ev.

(** Stand-ins for the collaborators, to run the pipeline on: the query is
    the [q] option, its plain form tags it, the backend answers with the
    query it got and the transformer wraps the answer. *)
Module Sample.
Definition build (opts : gmap string pyval) : string + pyval :=
  inr (getattr opts "q").
Definition to_dict (q : pyval) : pyval := VList [VStr "query"; q].
Definition execute (q : pyval) (opts : gmap string pyval) (bt : string)
    : string + pyval :=
  inr (VList [VStr "hits"; q]).
Definition transform_result (res : pyval) (opts : gmap string tval)
    : string + pyval :=
  inr (VList [VStr "transformed"; res]).

Definition run (method bt : string) (o : OptionSet) : list (event pyval pyval string) :=
  trace to_dict build execute transform_result method bt o.

Definition raw_options : OptionSet :=
  {| control := {["raw" := VBool true]};
     esqb := {["q" := VStr "cdk2"]}; es := ∅; transform := ∅ |}.

Definition rawquery_options : OptionSet :=
  {| control := {["rawquery" := VBool true]};
     esqb := {["q" := VStr "cdk2"]}; es := ∅; transform := ∅ |}.

Definition both_options : OptionSet :=
  {| control := {["raw" := VBool true; "rawquery" := VBool true]};
     esqb := {["q" := VStr "cdk2"]}; es := ∅; transform := ∅ |}.
End Sample.

(** ** Sample option sets *)

(** The option set of the GET example and what it cleans to. *)
Definition ex_options : OptionSet :=
  {| control := {["raw" := VBool false; "rawquery" := VBool false]};
     esqb := {["aggs" := VBool false; "facet_size" := VInt 10]};
     es := {["fetch_all" := VBool true; "sort" := VStr "x"; "size" := VInt 5]};
     transform := ∅ |}.

Definition ex_cleaned : OptionSet :=
  {| control := {["raw" := VBool false; "rawquery" := VBool false]};
     esqb := {["aggs" := VBool false]};
     es := {["fetch_all" := VBool true]};
     transform := {["biothing_type" := TVal (VStr "gene")]} |}.

(** A source filter that asks for every field, and the same option set
    after one cleaning. *)
Definition all_fields : OptionSet :=
  {| control := ∅; esqb := ∅;
     es := {["_source" := VList [VStr "all"]]};
     transform := ∅ |}.

Definition all_fields_cleaned : OptionSet :=
  {| control := ∅; esqb := ∅;
     es := {["_source" := VBool true]};
     transform := {["biothing_type" := TVal (VStr "gene")]} |}.

(** A batch query by ids that also carries [q], and a source filter with
    the sentinel among its fields. *)
Definition batch_options : OptionSet :=
  {| control := ∅;
     esqb := {["ids" := VList [VStr "1017"; VStr "1018"]; "q" := VList [VStr "cdk2"]]};
     es := {["_source" := VList [VStr "symbol"; VStr "all"]]};
     transform := ∅ |}.

(** ** [BaseESRequestHandler.initialize] and [prepare] *)






(** [prepare]: [self.out_format = self.grouped_options.control.out_format
    or 'json'], once the parent class has grouped the options. *)
Definition prepare (grouped_options : OptionSet) : pyval :=
  py_or (getattr (control grouped_options) "out_format") (VStr "json").

(** ** Reading a run *)

(** A source filter on which ['all' in filter] raises: it is true in a
    condition and not a container. *)
Definition source_unsearchable (e : gmap string pyval) : bool :=
  match getattr e "_source" with
  | VBool b => b
  | VInt z => negb (z =? 0)
  | VNone | VStr _ | VList _ => false
  end.

(** The stage an event belongs to. *)
Inductive stage : Type := SBuild | SExecute | STransform | SFinish.

Definition stage_of {Query Payload Err} (ev : event Query Payload Err) : stage :=
  match ev with
  | EBuild _ _ => SBuild
  | EExecute _ _ _ _ => SExecute
  | ETransform _ _ _ => STransform
  | EFinish _ => SFinish
  end.

(** The exception a logged call of a collaborator ended with, if any. *)
Definition failure_of {Query Payload Err} (ev : event Query Payload Err)
    : option Err :=
  match ev with
  | EBuild _ (inl e) | EExecute _ _ _ (inl e) | ETransform _ _ (inl e) => Some e
  | _ => None
  end.

(** Collaborators that fail: a backend that times out behind the sample
    builder, to run the error path on. *)
Module Broken.
Definition execute (q : pyval) (opts : gmap string pyval) (bt : string)
    : string + pyval :=
  inl "timeout".

Definition run_request (method bt : string) (o : OptionSet)
    : pipe pyval pyval string unit :=
  run_request pyval pyval string Sample.to_dict Sample.build execute
    Sample.transform_result method bt o.
End Broken.


Definition two_fields : OptionSet :=
  {| control := {["out_format" := VStr "yaml"]};
     esqb := {["q" := VStr "cdk2"; "aggs" := VStr "type"; "facet_size" := VInt 3]};
     es := {["_source" := VList [VStr "symbol"; VStr "name"]; "sort" := VStr "x"]};
     transform := {["dotfield" := TVal (VBool true)]} |}.

Definition flag_filter : OptionSet :=
  {| control := ∅; esqb := ∅; es := {["_source" := VInt 1]}; transform := ∅ |}.

(** ** Facts about the option cleaner *)

Example str_contains_inside : str_contains "all" "ball" = true.
Proof. reflexivity. Qed.

Example py_in_bool : py_in "all" (VBool true) = Raise TypeError.
Proof. reflexivity. Qed.

Example py_in_other_fields : py_in "all" (VList [VStr "symbol"; VStr "name"]) = Ok false.
Proof. reflexivity. Qed.

Example queries_empty_ids :
  queries {["ids" := VList []; "q" := VList [VStr "cdk2"]]} = VList [VStr "cdk2"].
Proof. vm_compute. reflexivity. Qed.

Lemma getattr_delete_ne (d : gmap string pyval) k k' :
  k ≠ k' -> getattr (delete k d) k' = getattr d k'.
Proof. intros Hne. unfold getattr. by rewrite lookup_delete_ne. Qed.

Lemma getattr_insert_ne (d : gmap string pyval) k k' v :
  k ≠ k' -> getattr (<[k := v]> d) k' = getattr d k'.
Proof. intros Hne. unfold getattr. by rewrite lookup_insert_ne. Qed.

Lemma clean_esqb_getattr q k :
  k ≠ "facet_size" -> getattr (clean_esqb q) k = getattr q k.
Proof.
  intros Hne. unfold clean_esqb, pop.
  destruct (negb _); [|done]. by apply getattr_delete_ne.
Qed.

Lemma clean_esqb_queries q : queries (clean_esqb q) = queries q.
Proof. unfold queries. by rewrite !clean_esqb_getattr. Qed.

Lemma clean_esqb_idem q : clean_esqb (clean_esqb q) = clean_esqb q.
Proof.
  unfold clean_esqb at 1. rewrite clean_esqb_getattr by done.
  unfold clean_esqb, pop. destruct (negb _) eqn:E; [|done].
  apply delete_id, lookup_delete_eq.
Qed.

Lemma clean_fetch_all_lookup e k :
  k ≠ "sort" -> k ≠ "size" -> clean_fetch_all e !! k = e !! k.
Proof.
  intros H1 H2. unfold clean_fetch_all, pop.
  destruct (py_truthy _); [|done]. by rewrite !lookup_delete_ne.
Qed.

Lemma clean_fetch_all_getattr e k :
  k ≠ "sort" -> k ≠ "size" -> getattr (clean_fetch_all e) k = getattr e k.
Proof. intros H1 H2. unfold getattr. by rewrite clean_fetch_all_lookup. Qed.

Lemma clean_fetch_all_unsorted e : unsorted (clean_fetch_all e).
Proof.
  intros H. rewrite clean_fetch_all_getattr in H by done.
  unfold clean_fetch_all, pop. rewrite H. split.
  - by rewrite lookup_delete_ne, lookup_delete_eq.
  - by rewrite lookup_delete_eq.
Qed.

Lemma unsorted_fixed e : unsorted e -> clean_fetch_all e = e.
Proof.
  intros H. unfold clean_fetch_all, pop.
  destruct (py_truthy _) eqn:E; [|done].
  destruct (H E) as [Hs Hz].
  rewrite (delete_id e "sort") by done. by apply delete_id.
Qed.

(** What the second ES rule returns, by the filter it finds. *)
Lemma clean_source_cases e e' :
  clean_source e = Ok e' ->
  (getattr e "_source" = VNone ∧ e' = e)
  ∨ (py_truthy (getattr e "_source") = false ∧ e' = delete "_source" e)
  ∨ (py_in "all" (getattr e "_source") = Ok true ∧ e' = <["_source" := VBool true]> e)
  ∨ (py_truthy (getattr e "_source") = true
     ∧ py_in "all" (getattr e "_source") = Ok false ∧ e' = e).
Proof.
  unfold clean_source. intros H.
  destruct (getattr e "_source") as [|b|z|s|l] eqn:Hsrc.
  - left. by inversion H.
  - destruct b; [discriminate|]. right; left. by inversion H.
  - cbn in H. destruct (z =? 0) eqn:Hz; cbn in H; [|discriminate].
    right; left. cbn. rewrite Hz. by inversion H.
  - cbn in H. destruct (s =? "")%string eqn:Hs; cbn in H.
    + right; left. cbn. rewrite Hs. by inversion H.
    + destruct (str_contains "all" s) eqn:Hc; inversion H; subst.
      * right; right; left. cbn. by rewrite Hc.
      * right; right; right. cbn. by rewrite Hs, Hc.
  - destruct l as [|x l]; cbn in H.
    + right; left. by inversion H.
    + destruct (existsb (py_eq_str "all") (x :: l)) eqn:Hc; cbn in Hc; rewrite Hc in H;
        inversion H; subst.
      * right; right; left. cbn. by rewrite Hc.
      * right; right; right. cbn. by rewrite Hc.
Qed.

Lemma clean_source_unsorted e e' :
  clean_source e = Ok e' -> unsorted e -> unsorted e'.
Proof.
  intros H Hu. unfold unsorted in *.
  destruct (clean_source_cases _ _ H) as [[_ ->]|[[_ ->]|[[_ ->]|(_ & _ & ->)]]]; try done.
  - rewrite getattr_delete_ne by done. intros Hf. destruct (Hu Hf).
    by rewrite !lookup_delete_ne.
  - rewrite getattr_insert_ne by done. intros Hf. destruct (Hu Hf).
    by rewrite !lookup_insert_ne.
Qed.

(** Cleaning the source filter a second time: it raises on the [True] the
    first pass may have stored, and otherwise changes nothing. *)
Lemma clean_source_again e e' :
  clean_source e = Ok e' ->
  clean_source e' = if source_is_true e' then Raise TypeError else Ok e'.
Proof.
  intros H.
  destruct (clean_source_cases _ _ H) as [[Hs ->]|[[Hs ->]|[[Hs ->]|(Ht & Hs & ->)]]].
  - unfold clean_source, source_is_true. rewrite Hs.
    unfold getattr in Hs. destruct (e !! "_source") as [[]|]; cbn in Hs; try done.
  - unfold clean_source, source_is_true, getattr. by rewrite lookup_delete_eq.
  - unfold clean_source, source_is_true, getattr. by rewrite lookup_insert_eq.
  - unfold clean_source, source_is_true.
    unfold getattr in *. destruct (e !! "_source") as [[|b|z|s|l]|]; cbn in *; try done.
    + injection Hs as Hs. by rewrite Ht, Hs.
    + injection Hs as Hs. by rewrite Ht, Hs.
Qed.

Lemma clean_source_total e :
  source_is_selection e = true -> exists e', clean_source e = Ok e'.
Proof.
  unfold source_is_selection, clean_source.
  destruct (getattr e "_source") as [|b|z|s|l]; try done; intros _.
  - eauto.
  - destruct (negb _); [eauto|]. cbn. destruct (str_contains _ _); eauto.
  - destruct (negb _); [eauto|]. cbn. destruct (existsb _ _); eauto.
Qed.

Lemma clean_transform_again m bt q t t' :
  clean_transform m bt q t = Ok t' -> clean_transform m bt q t' = Ok t'.
Proof.
  unfold clean_transform. destruct (m =? "POST")%string.
  - destruct (py_iter (queries q)) as [items|] eqn:Hit; cbn; [|discriminate].
    intros [= <-]. f_equal. apply map_eq. intros k.
    destruct (decide (k = "template_hit")) as [->|]; [by simplify_map_eq|].
    destruct (decide (k = "template_miss")) as [->|]; [by simplify_map_eq|].
    destruct (decide (k = "templates")) as [->|]; [by simplify_map_eq|].
    destruct (decide (k = "biothing_type")) as [->|]; [by simplify_map_eq|].
    rewrite !lookup_insert_ne by done. done.
  - intros [= <-]. by rewrite insert_insert_eq.
Qed.

Lemma get_cleaned_options_run m bt o e :
  clean_source (clean_fetch_all (es o)) = Ok e -> carries_batch m (esqb o) = true ->
  exists t,
    clean_transform m bt (clean_esqb (esqb o)) (transform o) = Ok t
    ∧ get_cleaned_options m bt o =
        Ok {| control := control o; esqb := clean_esqb (esqb o); es := e; transform := t |}.
Proof.
  intros He Hbatch.
  assert (exists t, clean_transform m bt (clean_esqb (esqb o)) (transform o) = Ok t)
    as [t Ht].
  { unfold clean_transform. unfold carries_batch in Hbatch.
    destruct (m =? "POST")%string; [|eauto].
    rewrite clean_esqb_queries.
    destruct (py_iter (queries (esqb o))) as [items|]; [|discriminate]. cbn. eauto. }
  exists t. unfold get_cleaned_options. rewrite He. cbn. rewrite Ht. done.
Qed.

Lemma get_cleaned_options_total m bt o :
  source_is_selection (es o) = true -> carries_batch m (esqb o) = true ->
  exists e t,
    clean_source (clean_fetch_all (es o)) = Ok e
    ∧ clean_transform m bt (clean_esqb (esqb o)) (transform o) = Ok t
    ∧ get_cleaned_options m bt o =
        Ok {| control := control o; esqb := clean_esqb (esqb o); es := e; transform := t |}.
Proof.
  intros Hsel Hbatch.
  destruct (clean_source_total (clean_fetch_all (es o))) as [e He].
  { unfold source_is_selection. by rewrite clean_fetch_all_getattr. }
  destruct (get_cleaned_options_run m bt o e He Hbatch) as (t & Ht & Hrun).
  by exists e, t.
Qed.

(** C6. Cleaning the option set [{control: {raw: false, rawquery: false},
    esqb: {aggs: false, facet_size: 10}, es: {fetch_all: true, sort: "x",
    size: 5}, transform: {}}] for biothing type "gene" on a GET request
    returns [{control: {raw: false, rawquery: false}, esqb: {aggs: false},
    es: {fetch_all: true}, transform: {biothing_type: "gene"}}]. *)
Theorem get_cleaned_options_example :
  get_cleaned_options "GET" "gene" ex_options = Ok ex_cleaned.
Proof. vm_compute. reflexivity. Qed.

(** C2, as the code has it. When cleaning returns an option set, cleaning
    that set again (same biothing type and request method) returns it
    unchanged, unless the first pass stored the boolean [True] as the source
    filter: then the second pass raises [TypeError] at ['all' in True].  The
    templates generator of a POST counts as the sequence it yields. *)
Theorem get_cleaned_options_again m bt o o' :
  get_cleaned_options m bt o = Ok o' ->
  get_cleaned_options m bt o' =
    if source_is_true (es o') then Raise TypeError else Ok o'.
Proof.
  unfold get_cleaned_options at 1. intros H.
  destruct (clean_source (clean_fetch_all (es o))) as [e|] eqn:He; [|discriminate].
  cbn in H.
  destruct (clean_transform m bt (clean_esqb (esqb o)) (transform o)) as [t|] eqn:Ht;
    [|discriminate].
  cbn in H. injection H as <-.
  unfold get_cleaned_options. cbn [control esqb es transform].
  rewrite clean_esqb_idem.
  rewrite (unsorted_fixed e)
    by (eapply clean_source_unsorted; [exact He | apply clean_fetch_all_unsorted]).
  rewrite (clean_source_again _ _ He).
  destruct (source_is_true e); [done|]. cbn.
  by rewrite (clean_transform_again _ _ _ _ _ Ht).
Qed.

Lemma get_cleaned_options_again_witness :
  get_cleaned_options "GET" "gene" ex_options = Ok ex_cleaned
  ∧ get_cleaned_options "GET" "gene" ex_cleaned = Ok ex_cleaned.
Proof.
  split; [vm_compute; reflexivity|].
  apply (get_cleaned_options_again "GET" "gene" ex_options ex_cleaned).
  vm_compute; reflexivity.
Defined.

(** C2, counterexample. A source filter [["all"]] cleans to [True]; cleaning
    the cleaned set again does not return it, it raises [TypeError]. *)
Lemma get_cleaned_options_not_idempotent :
  get_cleaned_options "GET" "gene" all_fields = Ok all_fields_cleaned
  ∧ get_cleaned_options "GET" "gene" all_fields_cleaned = Raise TypeError
  ∧ get_cleaned_options "GET" "gene" all_fields_cleaned ≠ Ok all_fields_cleaned.
Proof. split; [|split]; vm_compute; [reflexivity|reflexivity|discriminate]. Qed.

(** The sentinel is found in a list that has it as an element. *)
Lemma py_in_list_elem needle (l : list pyval) :
  In (VStr needle) l -> py_in needle (VList l) = Ok true.
Proof.
  intros Hin. cbn. f_equal. apply existsb_exists.
  exists (VStr needle). split; [done|]. cbn. apply String.eqb_refl.
Qed.

(** C8. On a request whose batch, if it is a POST, can be iterated: a source
    filter that is present, not [None] and empty is removed by cleaning; a
    filter that is non-empty and contains the sentinel "all" (['all' in
    filter], for a list: "all" is one of its fields) is replaced by the
    boolean [True]; a filter that is absent (or [None]) is left as it is. *)
Theorem source_filter_cleaned m bt o :
  carries_batch m (esqb o) = true ->
  (forall v, es o !! "_source" = Some v -> v ≠ VNone -> py_truthy v = false ->
     exists o', get_cleaned_options m bt o = Ok o' ∧ es o' !! "_source" = None)
  ∧ (forall v, es o !! "_source" = Some v -> py_truthy v = true ->
       py_in "all" v = Ok true ->
       exists o', get_cleaned_options m bt o = Ok o'
                  ∧ es o' !! "_source" = Some (VBool true))
  ∧ (forall fields, es o !! "_source" = Some (VList fields) ->
       In (VStr "all") fields ->
       exists o', get_cleaned_options m bt o = Ok o'
                  ∧ es o' !! "_source" = Some (VBool true))
  ∧ (getattr (es o) "_source" = VNone ->
       exists o', get_cleaned_options m bt o = Ok o'
                  ∧ es o' !! "_source" = es o !! "_source").
Proof.
  intros Hbatch.
  assert (forall e, clean_source (clean_fetch_all (es o)) = Ok e ->
            exists o', get_cleaned_options m bt o = Ok o' ∧ es o' = e) as Hrun.
  { intros e He.
    destruct (get_cleaned_options_run m bt o e He Hbatch) as (t & _ & Hrun). eauto. }
  assert (getattr (clean_fetch_all (es o)) "_source" = getattr (es o) "_source") as Hsame
    by (by apply clean_fetch_all_getattr).
  assert (forall v, es o !! "_source" = Some v -> py_truthy v = true ->
            py_in "all" v = Ok true ->
            exists o', get_cleaned_options m bt o = Ok o'
                       ∧ es o' !! "_source" = Some (VBool true)) as Hsentinel.
  { intros v Hv Htruthy Hall.
    destruct (Hrun (<["_source" := VBool true]> (clean_fetch_all (es o))))
      as (o' & Ho' & He).
    { unfold clean_source. rewrite Hsame. unfold getattr. rewrite Hv.
      destruct v; try done; cbn in Htruthy, Hall |- *; injection Hall as Hall;
        by rewrite Htruthy, Hall. }
    exists o'. split; [done|]. rewrite He. apply lookup_insert_eq. }
  split; [|split; [exact Hsentinel|split]].
  - intros v Hv Hnone Hfalsy.
    destruct (Hrun (delete "_source" (clean_fetch_all (es o)))) as (o' & Ho' & He).
    { unfold clean_source. rewrite Hsame. unfold getattr. rewrite Hv.
      destruct v; try done; cbn in Hfalsy |- *; by rewrite Hfalsy. }
    exists o'. split; [done|]. rewrite He. apply lookup_delete_eq.
  - intros fields Hv Hin. apply (Hsentinel (VList fields) Hv).
    + by destruct fields.
    + by apply py_in_list_elem.
  - intros Hnone.
    destruct (Hrun (clean_fetch_all (es o))) as (o' & Ho' & He).
    { unfold clean_source. by rewrite Hsame, Hnone. }
    exists o'. split; [done|]. rewrite He. by apply clean_fetch_all_lookup.
Qed.

Lemma source_filter_cleaned_witness :
  carries_batch "POST" (esqb batch_options) = true
  ∧ exists o', get_cleaned_options "POST" "gene" batch_options = Ok o'
               ∧ es o' !! "_source" = Some (VBool true).
Proof.
  assert (carries_batch "POST" (esqb batch_options) = true) as Hbatch
    by (vm_compute; reflexivity).
  split; [exact Hbatch|].
  apply (proj1 (proj2 (source_filter_cleaned "POST" "gene" batch_options Hbatch))
           (VList [VStr "symbol"; VStr "all"])); reflexivity.
Defined.

(** C7. On a POST whose query terms are a sequence of N items, cleaning
    returns, and the transform stage then holds the N per-item templates in
    the order of the terms, the i-th one being [{query: term_i}], the miss
    template [{notfound: True}] and the empty hit template. *)
Theorem post_templates_echo_terms bt o (terms : list pyval) :
  source_is_selection (es o) = true ->
  queries (esqb o) = VList terms ->
  exists o' ts,
    get_cleaned_options "POST" bt o = Ok o'
    ∧ transform o' !! "templates" = Some (TGen ts)
    ∧ List.length ts = List.length terms
    ∧ (forall (i : nat) x, terms !! i = Some x -> ts !! i = Some {["query" := x]})
    ∧ transform o' !! "template_miss" = Some (TDict {["notfound" := VBool true]})
    ∧ transform o' !! "template_hit" = Some (TDict ∅).
Proof.
  intros Hsel Hq.
  destruct (get_cleaned_options_total "POST" bt o Hsel) as (e & t & _ & Ht & Hrun).
  { unfold carries_batch. by rewrite Hq. }
  unfold clean_transform in Ht. cbn [String.eqb Ascii.eqb Bool.eqb] in Ht.
  rewrite clean_esqb_queries, Hq in Ht.
  cbn in Ht. injection Ht as <-.
  eexists _, (map template terms). split; [exact Hrun|]. cbn [transform].
  split; [by simplify_map_eq|].
  split; [by rewrite length_map|].
  split; [|split; by simplify_map_eq].
  intros i x Hx. rewrite list_lookup_fmap, Hx. done.
Qed.

Lemma post_templates_echo_terms_witness :
  source_is_selection (es batch_options) = true
  ∧ queries (esqb batch_options) = VList [VStr "1017"; VStr "1018"]
  ∧ exists o' ts,
      get_cleaned_options "POST" "gene" batch_options = Ok o'
      ∧ transform o' !! "templates" = Some (TGen ts)
      ∧ List.length ts = 2%nat
      ∧ (forall (i : nat) x, [VStr "1017"; VStr "1018"] !! i = Some x ->
           ts !! i = Some {["query" := x]})
      ∧ transform o' !! "template_miss" = Some (TDict {["notfound" := VBool true]})
      ∧ transform o' !! "template_hit" = Some (TDict ∅).
Proof.
  assert (source_is_selection (es batch_options) = true) as Hsel
    by (vm_compute; reflexivity).
  assert (queries (esqb batch_options) = VList [VStr "1017"; VStr "1018"]) as Hq
    by (vm_compute; reflexivity).
  split; [exact Hsel|]. split; [exact Hq|].
  exact (post_templates_echo_terms "gene" batch_options _ Hsel Hq).
Defined.

(** C10. On a POST, when [ids] is a non-empty sequence the templates are
    built from [ids], whatever [q] holds; when [ids] is absent, [None] or
    empty they are built from [q]. *)
Theorem post_templates_prefer_ids bt o :
  source_is_selection (es o) = true ->
  (forall ids, getattr (esqb o) "ids" = VList ids -> ids ≠ [] ->
     exists o', get_cleaned_options "POST" bt o = Ok o'
       ∧ transform o' !! "templates"
         = Some (TGen (map (fun x => {["query" := x]}) ids)))
  ∧ (forall qs, py_truthy (getattr (esqb o) "ids") = false ->
       getattr (esqb o) "q" = VList qs ->
       exists o', get_cleaned_options "POST" bt o = Ok o'
         ∧ transform o' !! "templates"
           = Some (TGen (map (fun x => {["query" := x]}) qs))).
Proof.
  intros Hsel.
  assert (forall l, queries (esqb o) = VList l ->
            exists o', get_cleaned_options "POST" bt o = Ok o'
              ∧ transform o' !! "templates"
                = Some (TGen (map (fun x => {["query" := x]}) l))) as Hrun.
  { intros l Hq.
    destruct (get_cleaned_options_total "POST" bt o Hsel) as (e & t & _ & Ht & Hrun).
    { unfold carries_batch. by rewrite Hq. }
    unfold clean_transform in Ht. cbn [String.eqb Ascii.eqb Bool.eqb] in Ht.
    rewrite clean_esqb_queries, Hq in Ht.
    cbn in Ht. injection Ht as <-.
    eexists. split; [exact Hrun|]. cbn [transform]. by simplify_map_eq. }
  split.
  - intros ids Hids Hne. apply Hrun. unfold queries, py_or. rewrite Hids.
    by destruct ids.
  - intros qs Hfalsy Hqs. apply Hrun. unfold queries, py_or. by rewrite Hfalsy.
Qed.

Lemma post_templates_prefer_ids_witness :
  source_is_selection (es batch_options) = true
  ∧ exists o', get_cleaned_options "POST" "gene" batch_options = Ok o'
      ∧ transform o' !! "templates"
        = Some (TGen [ {["query" := VStr "1017"]}; {["query" := VStr "1018"]} ]).
Proof.
  assert (source_is_selection (es batch_options) = true) as Hsel
    by (vm_compute; reflexivity).
  split; [exact Hsel|].
  apply (proj1 (post_templates_prefer_ids "gene" batch_options Hsel)
           [VStr "1017"; VStr "1018"]); [reflexivity | discriminate].
Defined.

(** ** Facts about the error formatter *)

(** ['\n' in s] holds exactly when the line feed is one of the characters
    of [s]. *)
Lemma str_contains_LF s :
  str_contains LF s = true <-> In (ascii_of_nat 10) (list_ascii_of_string s).
Proof.
  induction s as [|a s IH]; cbn [str_contains list_ascii_of_string In].
  - cbn. split; [discriminate|tauto].
  - rewrite orb_true_iff, IH. unfold LF at 1. cbn [String.prefix].
    destruct (ascii_dec (ascii_of_nat 10) a) as [->|Hne].
    + split; [by left|]. intros _. left. by destruct s.
    + split; [intros [|]; [discriminate|by right]|].
      intros [Heq|Hin]; [by destruct Hne|by right].
Qed.

Lemma write_error_message self_reason status_code kwargs :
  str_contains LF (default self_reason (kw_reason kwargs)) = false ->
  write_error self_reason status_code kwargs
  = Ok (update (base_message status_code (default self_reason (kw_reason kwargs)))
               (detail kwargs)).
Proof.
  intros Hline. unfold write_error, detail, update. rewrite Hline.
  destruct (kw_exc_info kwargs) as [[extra|]|]; try by rewrite (left_id_L ∅ (∪)).
  case_bool_decide as Hextra; [done|].
  subst extra. by rewrite (left_id_L ∅ (∪)).
Qed.

(** C9. When the resolved reason (the [reason] keyword if given, else the
    handler's [_reason]) has a line feed among its characters, [write_error]
    raises [AssertionError] and hands no message to [finish]; when it has
    none, [write_error] returns with a message. *)
Theorem write_error_line_break self_reason status_code kwargs :
  (In (ascii_of_nat 10)
      (list_ascii_of_string (default self_reason (kw_reason kwargs))) ->
   write_error self_reason status_code kwargs = Raise AssertionError)
  ∧ (¬ In (ascii_of_nat 10)
         (list_ascii_of_string (default self_reason (kw_reason kwargs))) ->
     exists message, write_error self_reason status_code kwargs = Ok message).
Proof.
  split.
  - intros Hin. apply str_contains_LF in Hin. unfold write_error. by rewrite Hin.
  - intros Hnot. eexists. apply write_error_message.
    destruct (str_contains LF _) eqn:E; [|done].
    apply str_contains_LF in E. by destruct Hnot.
Qed.

Lemma write_error_line_break_witness :
  write_error "Not Found" 404
    {| kw_reason := Some ("no such" ++ LF ++ "gene"); kw_exc_info := None |}
  = Raise AssertionError
  ∧ exists message,
      write_error "Not Found" 404 {| kw_reason := None; kw_exc_info := None |}
      = Ok message.
Proof.
  split.
  - apply (proj1 (write_error_line_break "Not Found" 404
             {| kw_reason := Some ("no such" ++ LF ++ "gene"); kw_exc_info := None |})).
    vm_compute. tauto.
  - apply (proj2 (write_error_line_break "Not Found" 404
             {| kw_reason := None; kw_exc_info := None |})).
    vm_compute. intros H. repeat (destruct H as [H|H]; [discriminate H|]). exact H.
Defined.

(** C5, as the code has it. For every status code and every error whose
    resolved reason has no line feed, the message is the base envelope
    [{code: status_code, success: False, error: reason}] updated with the
    structured detail of the error, where [reason] is the error's reason if
    it has one and the handler's default reason otherwise; for an error
    without structured detail it is exactly the base envelope; status 503
    with reason "timeout" gives [{code: 503, success: False, error:
    "timeout"}]. *)
Theorem write_error_envelope self_reason status_code kwargs :
  ¬ In (ascii_of_nat 10)
       (list_ascii_of_string (default self_reason (kw_reason kwargs))) ->
  write_error self_reason status_code kwargs
  = Ok (detail kwargs
        ∪ {["code" := VInt status_code; "success" := VBool false;
            "error" := VStr (default self_reason (kw_reason kwargs))]})
  ∧ (detail kwargs = ∅ ->
     write_error self_reason status_code kwargs
     = Ok {["code" := VInt status_code; "success" := VBool false;
            "error" := VStr (default self_reason (kw_reason kwargs))]})
  ∧ write_error self_reason 503
      {| kw_reason := Some "timeout"; kw_exc_info := Some OtherException |}
    = Ok {["code" := VInt 503; "success" := VBool false; "error" := VStr "timeout"]}
  ∧ write_error "timeout" 503
      {| kw_reason := None; kw_exc_info := Some OtherException |}
    = Ok {["code" := VInt 503; "success" := VBool false; "error" := VStr "timeout"]}.
Proof.
  intros Hnot.
  assert (str_contains LF (default self_reason (kw_reason kwargs)) = false) as Hline.
  { destruct (str_contains LF _) eqn:E; [|done].
    apply str_contains_LF in E. by destruct Hnot. }
  split; [by apply write_error_message|]. split.
  - intros Hd. rewrite write_error_message by done. unfold update.
    by rewrite Hd, (left_id_L ∅ (∪)).
  - split; vm_compute; reflexivity.
Qed.

Lemma write_error_envelope_witness :
  write_error "Service Unavailable" 503
    {| kw_reason := None; kw_exc_info := Some OtherException |}
  = Ok {["code" := VInt 503; "success" := VBool false;
         "error" := VStr "Service Unavailable"]}.
Proof.
  refine (proj1 (proj2 (write_error_envelope "Service Unavailable" 503
            {| kw_reason := None; kw_exc_info := Some OtherException |} _)) _).
  - vm_compute. intros H. repeat (destruct H as [H|H]; [discriminate H|]). exact H.
  - reflexivity.
Defined.

(** C5, counterexample. A reason with a line feed gives no envelope at all,
    and a bad request with structured detail gives an envelope that is not
    the three-key one. *)
Lemma write_error_not_base_envelope :
  write_error "Bad Request" 400
    {| kw_reason := Some ("bad" ++ LF ++ "request"); kw_exc_info := None |}
  = Raise AssertionError
  ∧ write_error "Bad Request" 400
      {| kw_reason := None;
         kw_exc_info := Some (BadRequest {["missing" := VStr "q"]}) |}
    = Ok {["code" := VInt 400; "success" := VBool false;
           "error" := VStr "Bad Request"; "missing" := VStr "q"]}
  ∧ write_error "Bad Request" 400
      {| kw_reason := None;
         kw_exc_info := Some (BadRequest {["missing" := VStr "q"]}) |}
    ≠ Ok {["code" := VInt 400; "success" := VBool false;
           "error" := VStr "Bad Request"]}.
Proof.
  split; [vm_compute; reflexivity|]. split; [vm_compute; reflexivity|].
  intros H.
  apply (f_equal (fun r => match r with Ok m => m !! "missing" | Raise _ => None end)) in H.
  vm_compute in H. discriminate H.
Qed.

(** C3, as the code has it. For every status code and every error whose
    resolved reason has no line feed, [write_error] returns a message; its
    [success] key holds [False] when the structured detail of the error has
    no [success] key of its own, and otherwise the value the detail gives
    it. *)
Theorem write_error_success self_reason status_code kwargs :
  ¬ In (ascii_of_nat 10)
       (list_ascii_of_string (default self_reason (kw_reason kwargs))) ->
  exists message,
    write_error self_reason status_code kwargs = Ok message
    ∧ (detail kwargs !! "success" = None -> message !! "success" = Some (VBool false))
    ∧ (forall v, detail kwargs !! "success" = Some v -> message !! "success" = Some v).
Proof.
  intros Hnot. eexists. split.
  - apply write_error_message.
    destruct (str_contains LF _) eqn:E; [|done].
    apply str_contains_LF in E. by destruct Hnot.
  - unfold update, base_message. split.
    + intros Hd. rewrite lookup_union_r by done. by simplify_map_eq.
    + intros v Hd. by apply lookup_union_Some_l.
Qed.

Lemma write_error_success_witness :
  exists message,
    write_error "Bad Request" 400
      {| kw_reason := None;
         kw_exc_info := Some (BadRequest {["missing" := VStr "q"]}) |}
    = Ok message
    ∧ message !! "success" = Some (VBool false).
Proof.
  destruct (write_error_success "Bad Request" 400
              {| kw_reason := None;
                 kw_exc_info := Some (BadRequest {["missing" := VStr "q"]}) |})
    as (message & Hrun & Hnone & _).
  - vm_compute. intros H. repeat (destruct H as [H|H]; [discriminate H|]). exact H.
  - exists message. split; [exact Hrun|]. apply Hnone. reflexivity.
Defined.

(** C3, counterexample. A bad request whose detail has a [success] key
    overwrites the flag: the envelope holds [success: True]. *)
Lemma write_error_success_overwritten :
  write_error "Bad Request" 400
    {| kw_reason := None;
       kw_exc_info := Some (BadRequest {["success" := VBool true]}) |}
  = Ok {["code" := VInt 400; "success" := VBool true; "error" := VStr "Bad Request"]}
  ∧ ({["code" := VInt 400; "success" := VBool true; "error" := VStr "Bad Request"]}
       : gmap string pyval) !! "success" ≠ Some (VBool false).
Proof. split; [vm_compute; reflexivity|]. vm_compute. discriminate. Qed.

(** ** Facts about the pipeline *)

Lemma get_cleaned_options_stages m bt o o' :
  get_cleaned_options m bt o = Ok o' ->
  control o' = control o ∧ esqb o' = clean_esqb (esqb o).
Proof.
  unfold get_cleaned_options. intros H.
  destruct (clean_source _) as [e|]; [|discriminate]. cbn in H.
  destruct (clean_transform _ _ _ _) as [t|]; [|discriminate]. cbn in H.
  by injection H as <-.
Qed.

Section PipelineFacts.

Context {Query Payload Err : Type}.
Variable to_dict : Query -> Payload.
Variable build : gmap string pyval -> Err + Query.
Variable execute : Query -> gmap string pyval -> string -> Err + Payload.
Variable transform_result : Payload -> gmap string tval -> Err + Payload.

(** How a run goes, stage by stage: [tr] is its trace. *)
Lemma trace_cases method bt o tr :
  tr = trace to_dict build execute transform_result method bt o ->
  (exists e, get_cleaned_options method bt o = Raise e ∧ tr = [])
  ∨ exists o', get_cleaned_options method bt o = Ok o' ∧
    ((exists e, build (esqb o') = inl e ∧ tr = [EBuild (esqb o') (inl e)])
     ∨ exists q, build (esqb o') = inr q ∧
       ((py_truthy (getattr (control o') "rawquery") = true
         ∧ tr = [EBuild (esqb o') (inr q); EFinish (to_dict q)])
        ∨ (py_truthy (getattr (control o') "rawquery") = false ∧
           ((exists e, execute q (es o') bt = inl e
               ∧ tr = [EBuild (esqb o') (inr q); EExecute q (es o') bt (inl e)])
            ∨ exists res, execute q (es o') bt = inr res ∧
              ((py_truthy (getattr (control o') "raw") = true
                ∧ tr = [EBuild (esqb o') (inr q); EExecute q (es o') bt (inr res);
                        EFinish res])
               ∨ (py_truthy (getattr (control o') "raw") = false ∧
                  ((exists e, tr = [EBuild (esqb o') (inr q);
                                    EExecute q (es o') bt (inr res);
                                    ETransform res (transform o') (inl e)])
                   ∨ exists out, tr = [EBuild (esqb o') (inr q);
                                       EExecute q (es o') bt (inr res);
                                       ETransform res (transform o') (inr out);
                                       EFinish out]))))))).
Proof.
  intros ->. unfold trace, run_request, execute_pipeline.
  destruct (get_cleaned_options method bt o) as [o'|e]; [right|left; by exists e].
  exists o'. split; [done|]. cbn.
  destruct (build (esqb o')) as [e|q] eqn:Hb; [left; by exists e|right].
  exists q. split; [done|]. unfold pre_query_hook. cbn.
  destruct (py_truthy (getattr (control o') "rawquery")); [left; by split|right].
  split; [done|]. cbn.
  destruct (execute q (es o') bt) as [e|res] eqn:Hx; [left; by exists e|right].
  exists res. split; [done|]. unfold pre_transform_hook. cbn.
  destruct (py_truthy (getattr (control o') "raw")); [left; by split|right].
  split; [done|]. cbn.
  destruct (transform_result res (transform o')) as [e|out]; [left; by exists e|right].
  by exists out.
Qed.

(** C4. In every run whose control option [rawquery] is true the backend
    is never called, and when cleaning returns and the builder returns a
    query the one response the run emits is that query's [to_dict()]. *)
Theorem rawquery_emits_query method bt o tr :
  tr = trace to_dict build execute transform_result method bt o ->
  py_truthy (getattr (control o) "rawquery") = true ->
  (forall ev, In ev tr -> is_execute ev = false)
  ∧ (forall o' q, get_cleaned_options method bt o = Ok o' ->
       build (esqb o') = inr q ->
       emitted tr = [to_dict q]).
Proof.
  intros Htr Hraw.
  destruct (trace_cases method bt o tr Htr) as [(e & Hclean & ->)|(o' & Hclean & Hrun)].
  { split; [intros ev []|]. intros o' q Ho'. congruence. }
  destruct (get_cleaned_options_stages _ _ _ _ Hclean) as [Hc _].
  rewrite <- Hc in Hraw.
  destruct Hrun as [(e & Hb & ->)|(q & Hb & [(_ & ->)|(Hno & _)])].
  - split; [by intros ev [<-|[]]|].
    intros o2 q Ho2. rewrite Hclean in Ho2. injection Ho2 as <-. congruence.
  - split; [by intros ev [<-|[<-|[]]]|].
    intros o2 q' Ho2 Hb'. rewrite Hclean in Ho2. injection Ho2 as <-.
    rewrite Hb in Hb'. by injection Hb' as <-.
  - congruence.
Qed.

(** C1, as the code has it. In every run whose control option [raw] is true
    the transformer is never called; when moreover [rawquery] is not true
    and cleaning, the builder and the backend return, the one response the
    run emits is the raw result, as the backend gave it. *)
Theorem raw_emits_result method bt o tr :
  tr = trace to_dict build execute transform_result method bt o ->
  py_truthy (getattr (control o) "raw") = true ->
  (forall ev, In ev tr -> is_transform ev = false)
  ∧ (py_truthy (getattr (control o) "rawquery") = false ->
     forall o' q res, get_cleaned_options method bt o = Ok o' ->
       build (esqb o') = inr q ->
       execute q (es o') bt = inr res ->
       emitted tr = [res]).
Proof.
  intros Htr Hraw.
  destruct (trace_cases method bt o tr Htr) as [(e & Hclean & ->)|(o' & Hclean & Hrun)].
  { split; [intros ev []|]. intros _ o' q res Ho'. congruence. }
  destruct (get_cleaned_options_stages _ _ _ _ Hclean) as [Hc _].
  rewrite <- Hc in Hraw. rewrite <- Hc.
  destruct Hrun as [(e & Hb & ->)|(q & Hb & [(Hrq & ->)|(_ & Hrun)])].
  - split; [by intros ev [<-|[]]|].
    intros _ o2 q res Ho2. rewrite Hclean in Ho2. injection Ho2 as <-. congruence.
  - split; [by intros ev [<-|[<-|[]]]|]. congruence.
  - destruct Hrun as [(e & Hx & ->)|(res & Hx & [(_ & ->)|(Hno & _)])].
    + split; [by intros ev [<-|[<-|[]]]|].
      intros _ o2 q' res Ho2 Hb'. rewrite Hclean in Ho2. injection Ho2 as <-.
      rewrite Hb in Hb'. injection Hb' as <-. congruence.
    + split; [by intros ev [<-|[<-|[<-|[]]]]|].
      intros _ o2 q' res' Ho2 Hb' Hx'. rewrite Hclean in Ho2. injection Ho2 as <-.
      rewrite Hb in Hb'. injection Hb' as <-. rewrite Hx in Hx'. by injection Hx' as <-.
    + congruence.
Qed.

End PipelineFacts.

Lemma rawquery_emits_query_witness :
  py_truthy (getattr (control Sample.rawquery_options) "rawquery") = true
  ∧ emitted (Sample.run "GET" "gene" Sample.rawquery_options)
    = [VList [VStr "query"; VStr "cdk2"]].
Proof.
  assert (py_truthy (getattr (control Sample.rawquery_options) "rawquery") = true)
    as Hraw by reflexivity.
  split; [exact Hraw|].
  apply (proj2 (rawquery_emits_query Sample.to_dict Sample.build Sample.execute
                  Sample.transform_result "GET" "gene" Sample.rawquery_options
                  _ eq_refl Hraw)
           {| control := {["rawquery" := VBool true]};
              esqb := {["q" := VStr "cdk2"]}; es := ∅;
              transform := {["biothing_type" := TVal (VStr "gene")]} |}
           (VStr "cdk2")).
  - vm_compute. reflexivity.
  - reflexivity.
Defined.

Lemma raw_emits_result_witness :
  py_truthy (getattr (control Sample.raw_options) "raw") = true
  ∧ py_truthy (getattr (control Sample.raw_options) "rawquery") = false
  ∧ emitted (Sample.run "GET" "gene" Sample.raw_options)
    = [VList [VStr "hits"; VStr "cdk2"]].
Proof.
  assert (py_truthy (getattr (control Sample.raw_options) "raw") = true)
    as Hraw by reflexivity.
  split; [exact Hraw|]. split; [reflexivity|].
  apply (proj2 (raw_emits_result Sample.to_dict Sample.build Sample.execute
                  Sample.transform_result "GET" "gene" Sample.raw_options
                  _ eq_refl Hraw)
           eq_refl
           {| control := {["raw" := VBool true]};
              esqb := {["q" := VStr "cdk2"]}; es := ∅;
              transform := {["biothing_type" := TVal (VStr "gene")]} |}
           (VStr "cdk2") (VList [VStr "hits"; VStr "cdk2"])).
  - vm_compute. reflexivity.
  - reflexivity.
  - reflexivity.
Defined.

(** C1, counterexample. With [raw] and [rawquery] both true the run ends at
    the query hook: the backend is not called, and the response is the
    query's plain form, not the result the backend would have given. *)
Lemma raw_with_rawquery_emits_query :
  py_truthy (getattr (control Sample.both_options) "raw") = true
  ∧ Sample.run "GET" "gene" Sample.both_options
    = [EBuild {["q" := VStr "cdk2"]} (inr (VStr "cdk2"));
       EFinish (VList [VStr "query"; VStr "cdk2"])]
  ∧ Sample.execute (VStr "cdk2") ∅ "gene" = inr (VList [VStr "hits"; VStr "cdk2"])
  ∧ emitted (Sample.run "GET" "gene" Sample.both_options)
    ≠ [VList [VStr "hits"; VStr "cdk2"]].
Proof.
  split; [reflexivity|]. split; [vm_compute; reflexivity|]. split; [reflexivity|].
  vm_compute. discriminate.
Qed.

(** ** More on the option cleaner *)

(** What a returned option set is made of. *)
Lemma get_cleaned_options_inv m bt o o' :
  get_cleaned_options m bt o = Ok o' ->
  exists e t,
    clean_source (clean_fetch_all (es o)) = Ok e
    ∧ clean_transform m bt (clean_esqb (esqb o)) (transform o) = Ok t
    ∧ o' = {| control := control o; esqb := clean_esqb (esqb o); es := e;
              transform := t |}.
Proof.
  unfold get_cleaned_options. intros H.
  destruct (clean_source _) as [e|] eqn:He; [|discriminate]. cbn in H.
  destruct (clean_transform _ _ _ _) as [t|] eqn:Ht; [|discriminate]. cbn in H.
  injection H as <-. by exists e, t.
Qed.

Lemma clean_source_lookup e e' k :
  clean_source e = Ok e' -> k ≠ "_source" -> e' !! k = e !! k.
Proof.
  intros H Hk.
  destruct (clean_source_cases _ _ H) as [[_ ->]|[[_ ->]|[[_ ->]|(_ & _ & ->)]]];
    try done.
  - by rewrite lookup_delete_ne.
  - by rewrite lookup_insert_ne.
Qed.

Lemma existsb_py_eq_str_false needle (l : list pyval) :
  ¬ In (VStr needle) l -> existsb (py_eq_str needle) l = false.
Proof.
  intros Hnot. destruct (existsb _ l) eqn:E; [|done].
  apply existsb_exists in E as (x & Hin & Heq). destruct x; try done.
  cbn in Heq. apply String.eqb_eq in Heq. subst. by destruct Hnot.
Qed.

(** X1. When cleaning returns: without aggregation ([aggs] absent, [None]
    or otherwise false) the query-build stage has no [facet_size] any more,
    with aggregation the stage is unchanged, and every other option of the
    stage is kept in both cases. *)
Theorem cleaned_facet_size m bt o o' :
  get_cleaned_options m bt o = Ok o' ->
  (py_truthy (getattr (esqb o) "aggs") = false -> esqb o' !! "facet_size" = None)
  ∧ (py_truthy (getattr (esqb o) "aggs") = true -> esqb o' = esqb o)
  ∧ (forall k, k ≠ "facet_size" -> esqb o' !! k = esqb o !! k).
Proof.
  intros H. destruct (get_cleaned_options_inv _ _ _ _ H) as (e & t & _ & _ & ->).
  cbn [esqb]. unfold clean_esqb, pop. split; [|split].
  - intros ->. cbn. apply lookup_delete_eq.
  - by intros ->.
  - intros k Hk. destruct (negb _); [|done]. by rewrite lookup_delete_ne.
Qed.

Lemma cleaned_facet_size_witness :
  get_cleaned_options "GET" "gene" ex_options = Ok ex_cleaned
  ∧ esqb ex_cleaned !! "facet_size" = None.
Proof.
  assert (get_cleaned_options "GET" "gene" ex_options = Ok ex_cleaned) as H
    by (vm_compute; reflexivity).
  split; [exact H|].
  apply (proj1 (cleaned_facet_size "GET" "gene" ex_options ex_cleaned H)).
  reflexivity.
Defined.

(** X2. When cleaning returns: with [fetch_all] set the execution stage has
    neither [sort] nor [size] any more, without it both are as they were,
    and every option other than [sort], [size] and [_source] is kept. *)
Theorem cleaned_fetch_all m bt o o' :
  get_cleaned_options m bt o = Ok o' ->
  (py_truthy (getattr (es o) "fetch_all") = true ->
     es o' !! "sort" = None ∧ es o' !! "size" = None)
  ∧ (py_truthy (getattr (es o) "fetch_all") = false ->
       es o' !! "sort" = es o !! "sort" ∧ es o' !! "size" = es o !! "size")
  ∧ (forall k, k ≠ "sort" -> k ≠ "size" -> k ≠ "_source" -> es o' !! k = es o !! k).
Proof.
  intros H. destruct (get_cleaned_options_inv _ _ _ _ H) as (e & t & He & _ & ->).
  cbn [es]. split; [|split].
  - intros Hf. rewrite !(clean_source_lookup _ _ _ He) by done.
    unfold clean_fetch_all, pop. rewrite Hf.
    by rewrite lookup_delete_ne, !lookup_delete_eq.
  - intros Hf. rewrite !(clean_source_lookup _ _ _ He) by done.
    unfold clean_fetch_all. by rewrite Hf.
  - intros k H1 H2 H3. rewrite (clean_source_lookup _ _ _ He) by done.
    by apply clean_fetch_all_lookup.
Qed.

Lemma cleaned_fetch_all_witness :
  get_cleaned_options "GET" "gene" ex_options = Ok ex_cleaned
  ∧ es ex_cleaned !! "sort" = None ∧ es ex_cleaned !! "size" = None.
Proof.
  assert (get_cleaned_options "GET" "gene" ex_options = Ok ex_cleaned) as H
    by (vm_compute; reflexivity).
  split; [exact H|].
  apply (proj1 (cleaned_fetch_all "GET" "gene" ex_options ex_cleaned H)).
  reflexivity.
Defined.

(** X3. When cleaning returns, the control stage is untouched, the transform
    stage holds the handler's biothing type under [biothing_type] (over any
    value given there), and every transform option other than
    [biothing_type], [templates], [template_miss] and [template_hit] is
    kept. *)
Theorem cleaned_frame m bt o o' :
  get_cleaned_options m bt o = Ok o' ->
  control o' = control o
  ∧ transform o' !! "biothing_type" = Some (TVal (VStr bt))
  ∧ (forall k, k ≠ "biothing_type" -> k ≠ "templates" -> k ≠ "template_miss" ->
       k ≠ "template_hit" -> transform o' !! k = transform o !! k).
Proof.
  intros H. destruct (get_cleaned_options_inv _ _ _ _ H) as (e & t & _ & Ht & ->).
  cbn [control transform]. split; [done|].
  unfold clean_transform in Ht. destruct (m =? "POST")%string.
  - destruct (py_iter _) as [items|]; cbn in Ht; [|discriminate].
    injection Ht as <-. split; [by simplify_map_eq|].
    intros k H1 H2 H3 H4. by rewrite !lookup_insert_ne.
  - injection Ht as <-. split; [by simplify_map_eq|].
    intros k H1 _ _ _. by rewrite lookup_insert_ne.
Qed.

Lemma cleaned_frame_witness :
  exists o', get_cleaned_options "POST" "gene" two_fields = Ok o'
    ∧ control o' = control two_fields
    ∧ transform o' !! "biothing_type" = Some (TVal (VStr "gene"))
    ∧ transform o' !! "dotfield" = Some (TVal (VBool true)).
Proof.
  assert (exists o', get_cleaned_options "POST" "gene" two_fields = Ok o') as [o' H]
    by (eexists; vm_compute; reflexivity).
  exists o'. split; [exact H|].
  destruct (cleaned_frame "POST" "gene" two_fields o' H) as (Hc & Hb & Hk).
  split; [exact Hc|]. split; [exact Hb|].
  rewrite Hk by discriminate. vm_compute. reflexivity.
Defined.

Lemma clean_source_raises e :
  (forall x, clean_source e = Raise x -> x = TypeError)
  ∧ ((exists x, clean_source e = Raise x) <-> source_unsearchable e = true).
Proof.
  assert (forall (r : result (gmap string pyval)) (bad : bool),
            (r = Raise TypeError ∧ bad = true) ∨ ((exists e', r = Ok e') ∧ bad = false) ->
            (forall x, r = Raise x -> x = TypeError)
            ∧ ((exists x, r = Raise x) <-> bad = true)) as Hboth.
  { intros r bad [[-> ->]|[[e' ->] ->]].
    - split; [by intros x [= <-]|]. split; [done|eauto].
    - split; [done|]. split; [by intros [x ?]|done]. }
  apply Hboth. unfold clean_source, source_unsearchable.
  destruct (getattr e "_source") as [|b|z|s|l]; cbn.
  - right. eauto.
  - destruct b; cbn; [by left|right; eauto].
  - destruct (z =? 0); cbn; [right; eauto|by left].
  - right. split; [|done]. destruct (negb _); [eauto|]. cbn.
    destruct (str_contains _ _); eauto.
  - right. split; [|done]. destruct l; [eauto|]. cbn.
    destruct (_ || _); eauto.
Qed.

Lemma source_unsearchable_fetch_all e :
  source_unsearchable (clean_fetch_all e) = source_unsearchable e.
Proof. unfold source_unsearchable. by rewrite clean_fetch_all_getattr. Qed.

(** X4. On a request whose method is not "POST" (the comparison is exact:
    "post" is not "POST") cleaning never reads the batch: it returns
    whenever the source filter can be searched, and the transform stage it
    returns is the given one with [biothing_type] set, no template added,
    replaced or removed. *)
Theorem cleaned_without_templates m bt o :
  m ≠ "POST" ->
  (source_unsearchable (es o) = false -> exists o', get_cleaned_options m bt o = Ok o')
  ∧ (forall o', get_cleaned_options m bt o = Ok o' ->
       transform o' = <["biothing_type" := TVal (VStr bt)]> (transform o)).
Proof.
  intros Hm. apply String.eqb_neq in Hm. split.
  - intros Hs. unfold get_cleaned_options.
    destruct (clean_source (clean_fetch_all (es o))) as [e|x] eqn:He.
    + cbn. unfold clean_transform. rewrite Hm. cbn. eauto.
    + assert (source_unsearchable (clean_fetch_all (es o)) = true) as Hbad
        by (apply clean_source_raises; eauto).
      rewrite source_unsearchable_fetch_all in Hbad. congruence.
  - intros o' H. destruct (get_cleaned_options_inv _ _ _ _ H) as (e & t & _ & Ht & ->).
    unfold clean_transform in Ht. rewrite Hm in Ht. by injection Ht as <-.
Qed.

Lemma cleaned_without_templates_witness :
  "post" ≠ "POST"
  ∧ exists o', get_cleaned_options "post" "gene" batch_options = Ok o'
      ∧ transform o' = {["biothing_type" := TVal (VStr "gene")]}.
Proof.
  assert ("post" ≠ "POST") as Hm by discriminate.
  split; [exact Hm|].
  destruct (cleaned_without_templates "post" "gene" batch_options Hm) as [Hrun Hshape].
  destruct (Hrun eq_refl) as [o' H].
  exists o'. split; [exact H|]. rewrite (Hshape o' H). reflexivity.
Defined.

(** X5. The only exception cleaning raises is [TypeError], and it raises
    exactly when the source filter is true in a condition without being a
    container (a boolean [True], a non-zero integer), or when the method is
    "POST" and [ids or q] cannot be iterated ([None], a boolean, an
    integer). *)
Theorem cleaning_raises m bt o :
  (forall x, get_cleaned_options m bt o = Raise x -> x = TypeError)
  ∧ ((exists x, get_cleaned_options m bt o = Raise x)
     <-> source_unsearchable (es o) = true ∨ carries_batch m (esqb o) = false).
Proof.
  pose proof (clean_source_raises (clean_fetch_all (es o))) as [Hty Hiff].
  rewrite source_unsearchable_fetch_all in Hiff.
  unfold get_cleaned_options, carries_batch, clean_transform.
  rewrite clean_esqb_queries.
  destruct (clean_source (clean_fetch_all (es o))) as [e|x] eqn:He; cbn.
  - assert (source_unsearchable (es o) = false) as Hs.
    { destruct (source_unsearchable (es o)); [|done].
      destruct (proj2 Hiff eq_refl) as [x Hx]. discriminate. }
    rewrite Hs. destruct (m =? "POST")%string.
    + destruct (py_iter (queries (esqb o))) as [items|x] eqn:Hit; cbn.
      * split; [done|]. split; [by intros [x ?]|by intros [|]].
      * split.
        -- intros y [= <-]. unfold py_iter in Hit.
           destruct (queries (esqb o)); congruence.
        -- split; eauto.
    + cbn. split; [done|]. split; [by intros [x ?]|by intros [|]].
  - split; [intros y [= <-]; by apply Hty|].
    split; [|eauto]. intros _. left. apply Hiff. eauto.
Qed.



(** X7. When cleaning returns, a source filter that is a non-empty list
    without the sentinel "all" among its fields is kept as it is. *)
Theorem cleaned_filter_kept m bt o o' (fields : list pyval) :
  get_cleaned_options m bt o = Ok o' ->
  es o !! "_source" = Some (VList fields) ->
  fields ≠ [] ->
  ¬ In (VStr "all") fields ->
  es o' !! "_source" = Some (VList fields).
Proof.
  intros H Hv Hne Hnot.
  destruct (get_cleaned_options_inv _ _ _ _ H) as (e & t & He & _ & ->). cbn [es].
  assert (clean_fetch_all (es o) !! "_source" = Some (VList fields)) as Hv'
    by (by rewrite clean_fetch_all_lookup).
  unfold clean_source, getattr in He. rewrite Hv' in He. cbn in He.
  destruct fields as [|x l]; [done|]. cbn [negb] in He.
  rewrite (existsb_py_eq_str_false "all" (x :: l) Hnot) in He.
  by injection He as <-.
Qed.

Lemma cleaned_filter_kept_witness :
  exists o', get_cleaned_options "GET" "gene" two_fields = Ok o'
    ∧ es o' !! "_source" = Some (VList [VStr "symbol"; VStr "name"]).
Proof.
  assert (exists o', get_cleaned_options "GET" "gene" two_fields = Ok o') as [o' H]
    by (eexists; vm_compute; reflexivity).
  exists o'. split; [exact H|].
  apply (cleaned_filter_kept "GET" "gene" two_fields o' _ H).
  - vm_compute. reflexivity.
  - discriminate.
  - intros [Hin|[Hin|[]]]; discriminate Hin.
Defined.

(** X8. When cleaning returns, the source filter it leaves is never an empty
    selection and never one that contains the sentinel: it is absent,
    [None], the boolean [True], or a non-empty string or list on which
    ['all' in filter] is false. *)
Theorem cleaned_filter_shape m bt o o' :
  get_cleaned_options m bt o = Ok o' ->
  match es o' !! "_source" with
  | None | Some VNone | Some (VBool true) => True
  | Some v => py_truthy v = true ∧ py_in "all" v = Ok false
  end.
Proof.
  intros H.
  destruct (get_cleaned_options_inv _ _ _ _ H) as (e & t & He & _ & ->). cbn [es].
  destruct (clean_source_cases _ _ He) as [[Hs ->]|[[Hs ->]|[[Hs ->]|(Ht & Hs & ->)]]].
  - unfold getattr in Hs. destruct (_ !! "_source") as [[]|]; cbn in Hs; done.
  - by rewrite lookup_delete_eq.
  - by rewrite lookup_insert_eq.
  - unfold getattr in Ht, Hs.
    destruct (_ !! "_source") as [[|b|z|s|l]|]; cbn in Ht, Hs |- *; done.
Qed.

Lemma cleaned_filter_shape_witness :
  exists o', get_cleaned_options "GET" "gene" two_fields = Ok o'
    ∧ py_in "all" (getattr (es o') "_source") = Ok false.
Proof.
  assert (exists o', get_cleaned_options "GET" "gene" two_fields = Ok o') as [o' H]
    by (eexists; vm_compute; reflexivity).
  exists o'. split; [exact H|].
  pose proof (cleaned_filter_shape "GET" "gene" two_fields o' H) as Hshape.
  injection H as <-. exact (proj2 Hshape).
Defined.

(** ** More on the error formatter *)

Lemma write_error_inv self_reason status_code kwargs message :
  write_error self_reason status_code kwargs = Ok message ->
  message = update (base_message status_code (default self_reason (kw_reason kwargs)))
                   (detail kwargs).
Proof.
  intros H.
  destruct (str_contains LF (default self_reason (kw_reason kwargs))) eqn:Hline.
  - unfold write_error in H. by rewrite Hline in H.
  - rewrite write_error_message in H by done. by injection H.
Qed.

(** X9. The keys of every message [write_error] hands to [finish] are
    [code], [success] and [error] together with the keys of the bad
    request's detail, and every pair of the detail is in the message with
    the detail's value. *)
Theorem write_error_keys self_reason status_code kwargs message :
  write_error self_reason status_code kwargs = Ok message ->
  dom message = ({["code"; "success"; "error"]} : gset string) ∪ dom (detail kwargs)
  ∧ (forall k v, detail kwargs !! k = Some v -> message !! k = Some v).
Proof.
  intros H. apply write_error_inv in H as ->. unfold update, base_message. split.
  - rewrite dom_union_L, !dom_insert_L, dom_singleton_L. apply (comm_L (∪)).
  - intros k v Hk. by apply lookup_union_Some_l.
Qed.

Lemma write_error_keys_witness :
  exists message,
    write_error "Bad Request" 400
      {| kw_reason := None;
         kw_exc_info := Some (BadRequest {["missing" := VStr "q"]}) |}
    = Ok message
    ∧ message !! "missing" = Some (VStr "q").
Proof.
  assert (exists message,
            write_error "Bad Request" 400
              {| kw_reason := None;
                 kw_exc_info := Some (BadRequest {["missing" := VStr "q"]}) |}
            = Ok message) as [message H]
    by (eexists; vm_compute; reflexivity).
  exists message. split; [exact H|].
  apply (proj2 (write_error_keys _ _ _ _ H) "missing" (VStr "q")).
  vm_compute. reflexivity.
Defined.

(** ** [initialize] and [prepare] *)





(** X11. The output format [prepare] sets is never [None] and never empty:
    it is "json" when the control option [out_format] is absent, [None] or
    empty, and the option's value otherwise; cleaning the options does not
    change it. *)
Theorem prepare_out_format o :
  py_truthy (prepare o) = true
  ∧ (py_truthy (getattr (control o) "out_format") = false -> prepare o = VStr "json")
  ∧ (py_truthy (getattr (control o) "out_format") = true ->
     prepare o = getattr (control o) "out_format")
  ∧ (forall m bt o', get_cleaned_options m bt o = Ok o' -> prepare o' = prepare o).
Proof.
  unfold prepare, py_or. split; [|split; [|split]].
  - by destruct (py_truthy (getattr (control o) "out_format")) eqn:E.
  - by intros ->.
  - by intros ->.
  - intros m bt o' H.
    destruct (get_cleaned_options_inv _ _ _ _ H) as (e & t & _ & _ & ->). done.
Qed.

Lemma prepare_out_format_witness :
  prepare two_fields = VStr "yaml" ∧ prepare ex_options = VStr "json".
Proof.
  split.
  - apply (proj1 (proj2 (proj2 (prepare_out_format two_fields)))). reflexivity.
  - apply (proj1 (proj2 (prepare_out_format ex_options))). reflexivity.
Defined.

(** ** More on the pipeline *)

Section RunFacts.

Context {Query Payload Err : Type}.
Variable to_dict : Query -> Payload.
Variable build : gmap string pyval -> Err + Query.
Variable execute : Query -> gmap string pyval -> string -> Err + Payload.
Variable transform_result : Payload -> gmap string tval -> Err + Payload.

(** The seven ways a request goes, with the events and the outcome of
    each. *)
Lemma run_request_cases method bt o r :
  r = run_request Query Payload Err to_dict build execute transform_result
        method bt o ->
  (exists e, get_cleaned_options method bt o = Raise e ∧ r = ([], Raised (Own e)))
  ∨ exists o', get_cleaned_options method bt o = Ok o' ∧
    ((exists e, build (esqb o') = inl e
        ∧ r = ([EBuild (esqb o') (inl e)], Raised (Theirs e)))
     ∨ exists q, build (esqb o') = inr q ∧
       ((py_truthy (getattr (control o') "rawquery") = true
         ∧ r = ([EBuild (esqb o') (inr q); EFinish (to_dict q)], Return tt))
        ∨ (py_truthy (getattr (control o') "rawquery") = false ∧
           ((exists e, execute q (es o') bt = inl e
               ∧ r = ([EBuild (esqb o') (inr q); EExecute q (es o') bt (inl e)],
                      Raised (Theirs e)))
            ∨ exists res, execute q (es o') bt = inr res ∧
              ((py_truthy (getattr (control o') "raw") = true
                ∧ r = ([EBuild (esqb o') (inr q); EExecute q (es o') bt (inr res);
                        EFinish res], Return tt))
               ∨ (py_truthy (getattr (control o') "raw") = false ∧
                  ((exists e, transform_result res (transform o') = inl e
                      ∧ r = ([EBuild (esqb o') (inr q);
                              EExecute q (es o') bt (inr res);
                              ETransform res (transform o') (inl e)],
                             Raised (Theirs e)))
                   ∨ exists out, transform_result res (transform o') = inr out
                      ∧ r = ([EBuild (esqb o') (inr q);
                              EExecute q (es o') bt (inr res);
                              ETransform res (transform o') (inr out);
                              EFinish out], Return tt)))))))).
Proof.
  intros ->. unfold run_request, execute_pipeline.
  destruct (get_cleaned_options method bt o) as [o'|e]; [right|left; by exists e].
  exists o'. split; [done|]. cbn.
  destruct (build (esqb o')) as [e|q] eqn:Hb; [left; by exists e|right].
  exists q. split; [done|]. unfold pre_query_hook. cbn.
  destruct (py_truthy (getattr (control o') "rawquery")); [left; by split|right].
  split; [done|]. cbn.
  destruct (execute q (es o') bt) as [e|res] eqn:Hx; [left; by exists e|right].
  exists res. split; [done|]. unfold pre_transform_hook. cbn.
  destruct (py_truthy (getattr (control o') "raw")); [left; by split|right].
  split; [done|]. cbn.
  destruct (transform_result res (transform o')) as [e|out] eqn:Ht;
    [left; by exists e|right].
  by exists out.
Qed.

(** X12. When neither [rawquery] nor [raw] is true and every stage returns,
    the request calls the builder on the cleaned query-build stage, the
    backend on the built query with the cleaned execution stage and the
    handler's biothing type, the transformer on the raw result with the
    cleaned transform stage, and finishes once, with what the transformer
    returned. *)
Theorem run_request_complete method bt o o' q res out :
  py_truthy (getattr (control o) "rawquery") = false ->
  py_truthy (getattr (control o) "raw") = false ->
  get_cleaned_options method bt o = Ok o' ->
  build (esqb o') = inr q ->
  execute q (es o') bt = inr res ->
  transform_result res (transform o') = inr out ->
  run_request Query Payload Err to_dict build execute transform_result method bt o
  = ([EBuild (esqb o') (inr q); EExecute q (es o') bt (inr res);
      ETransform res (transform o') (inr out); EFinish out], Return tt).
Proof.
  intros Hrq Hraw Hclean Hb Hx Ht.
  destruct (get_cleaned_options_stages _ _ _ _ Hclean) as [Hc _].
  rewrite <- Hc in Hrq, Hraw.
  unfold run_request, execute_pipeline. rewrite Hclean. cbn. rewrite Hb.
  unfold pre_query_hook. rewrite Hrq. cbn. rewrite Hx.
  unfold pre_transform_hook. rewrite Hraw. cbn. by rewrite Ht.
Qed.


(** X14. In every request the stages come in the order build, execute,
    transform, finish, each at most once: the builder is called first if
    anything is, the backend only after the builder, the transformer only
    after the backend, and [finish] is the last event when it occurs. *)
Theorem run_request_stage_order method bt o :
  In (map stage_of
        (fst (run_request Query Payload Err to_dict build execute transform_result
                method bt o)))
     [ []; [SBuild]; [SBuild; SFinish]; [SBuild; SExecute];
       [SBuild; SExecute; SFinish]; [SBuild; SExecute; STransform];
       [SBuild; SExecute; STransform; SFinish] ].
Proof.
  destruct (run_request_cases method bt o _ eq_refl)
    as [(e & _ & ->)|(o' & _ & Hrun)]; [cbn; tauto|].
  destruct Hrun as [(e & _ & ->)|(q & _ & [(_ & ->)|(_ & Hrun)])];
    [cbn; tauto|cbn; tauto|].
  destruct Hrun as [(e & _ & ->)|(res & _ & [(_ & ->)|(_ & Hrun)])];
    [cbn; tauto|cbn; tauto|].
  destruct Hrun as [(e & _ & ->)|(out & _ & ->)]; cbn; tauto.
Qed.

(** X15. When a logged call of a collaborator ended with an exception, that
    call is the last event of the request, the request raises that same
    exception, and nothing is emitted: no stage runs after a failure and no
    failure is swallowed. *)
Theorem run_request_failure_ends method bt o ev e :
  In ev (fst (run_request Query Payload Err to_dict build execute transform_result
                method bt o)) ->
  failure_of ev = Some e ->
  snd (run_request Query Payload Err to_dict build execute transform_result
         method bt o) = Raised (Theirs e)
  ∧ last (fst (run_request Query Payload Err to_dict build execute
                 transform_result method bt o)) = Some ev
  ∧ emitted (fst (run_request Query Payload Err to_dict build execute
                    transform_result method bt o)) = [].
Proof.
  destruct (run_request_cases method bt o _ eq_refl)
    as [(x & _ & ->)|(o' & _ & Hrun)]; [by intros []|].
  destruct Hrun as [(x & _ & ->)|(q & _ & [(_ & ->)|(_ & Hrun)])].
  - intros [<-|[]] [= <-]. done.
  - by intros [<-|[<-|[]]].
  - destruct Hrun as [(x & _ & ->)|(res & _ & [(_ & ->)|(_ & Hrun)])].
    + intros [<-|[<-|[]]]; [done|]. by intros [= <-].
    + by intros [<-|[<-|[<-|[]]]].
    + destruct Hrun as [(x & _ & ->)|(out & _ & ->)].
      * intros [<-|[<-|[<-|[]]]]; try done. by intros [= <-].
      * by intros [<-|[<-|[<-|[<-|[]]]]].
Qed.

End RunFacts.

Lemma run_request_complete_witness :
  run_request pyval pyval string Sample.to_dict Sample.build Sample.execute
    Sample.transform_result "GET" "gene" ex_options
  = ([EBuild {["aggs" := VBool false]} (inr VNone);
      EExecute VNone {["fetch_all" := VBool true]} "gene"
        (inr (VList [VStr "hits"; VNone]));
      ETransform (VList [VStr "hits"; VNone])
        {["biothing_type" := TVal (VStr "gene")]}
        (inr (VList [VStr "transformed"; VList [VStr "hits"; VNone]]));
      EFinish (VList [VStr "transformed"; VList [VStr "hits"; VNone]])],
     Return tt).
Proof.
  apply (run_request_complete Sample.to_dict Sample.build Sample.execute
           Sample.transform_result "GET" "gene" ex_options ex_cleaned).
  - reflexivity.
  - reflexivity.
  - vm_compute. reflexivity.
  - reflexivity.
  - reflexivity.
  - reflexivity.
Defined.


Lemma run_request_failure_ends_witness :
  Broken.run_request "GET" "gene" ex_options
  = ([EBuild {["aggs" := VBool false]} (inr VNone);
      EExecute VNone {["fetch_all" := VBool true]} "gene" (inl "timeout")],
     Raised (Theirs "timeout"))
  ∧ snd (Broken.run_request "GET" "gene" ex_options) = Raised (Theirs "timeout").
Proof.
  assert (Broken.run_request "GET" "gene" ex_options
          = ([EBuild {["aggs" := VBool false]} (inr VNone);
              EExecute VNone {["fetch_all" := VBool true]} "gene" (inl "timeout")],
             Raised (Theirs "timeout"))) as Hrun by (vm_compute; reflexivity).
  split; [exact Hrun|].
  refine (proj1 (run_request_failure_ends Sample.to_dict Sample.build Broken.execute
                   Sample.transform_result "GET" "gene" ex_options
                   (EExecute VNone {["fetch_all" := VBool true]} "gene" (inl "timeout"))
                   "timeout" _ eq_refl)).
  change (In (EExecute VNone {["fetch_all" := VBool true]} "gene" (inl "timeout"))
             (fst (Broken.run_request "GET" "gene" ex_options))).
  rewrite Hrun. right. left. reflexivity.
Defined.


(** What the collaborators can rely on in a cleaned option set. *)
Lemma cleaned_stages_facts m bt o o' :
  get_cleaned_options m bt o = Ok o' ->
  esqb o' = clean_esqb (esqb o)
  ∧ (py_truthy (getattr (esqb o) "aggs") = false -> esqb o' !! "facet_size" = None)
  ∧ (py_truthy (getattr (es o) "fetch_all") = true ->
     es o' !! "sort" = None ∧ es o' !! "size" = None)
  ∧ transform o' !! "biothing_type" = Some (TVal (VStr bt)).
Proof.
  intros H. destruct (get_cleaned_options_inv _ _ _ _ H) as (e & t & He & Ht & ->).
  cbn [esqb es transform]. split; [done|]. split; [|split].
  - intros Ha. unfold clean_esqb, pop. rewrite Ha. apply lookup_delete_eq.
  - intros Hf. rewrite !(clean_source_lookup _ _ _ He) by done.
    apply clean_fetch_all_unsorted. by rewrite clean_fetch_all_getattr.
  - unfold clean_transform in Ht. destruct (m =? "POST")%string.
    + destruct (py_iter _); cbn in Ht; [|discriminate]. injection Ht as <-.
      by simplify_map_eq.
    + injection Ht as <-. by simplify_map_eq.
Qed.

Section RunArguments.

Context {Query Payload Err : Type}.
Variable to_dict : Query -> Payload.
Variable build : gmap string pyval -> Err + Query.
Variable execute : Query -> gmap string pyval -> string -> Err + Payload.
Variable transform_result : Payload -> gmap string tval -> Err + Payload.

(** X16. What the collaborators are given in a request.  The builder gets
    the cleaned query-build stage, without [facet_size] when aggregation is
    off.  The backend gets a query the builder returned in this request, the
    handler's biothing type, and options without [sort] and [size] when
    [fetch_all] is set.  The transformer gets a result the backend returned
    in this request and options that carry the handler's biothing type. *)
Theorem run_request_arguments method bt o tr :
  tr = fst (run_request Query Payload Err to_dict build execute transform_result
              method bt o) ->
  (forall opts out, In (EBuild opts out) tr ->
     opts = clean_esqb (esqb o)
     ∧ (py_truthy (getattr (esqb o) "aggs") = false -> opts !! "facet_size" = None))
  ∧ (forall q opts b out, In (EExecute q opts b out) tr ->
       b = bt
       ∧ In (EBuild (clean_esqb (esqb o)) (inr q)) tr
       ∧ (py_truthy (getattr (es o) "fetch_all") = true ->
          opts !! "sort" = None ∧ opts !! "size" = None))
  ∧ (forall res opts out, In (ETransform res opts out) tr ->
       opts !! "biothing_type" = Some (TVal (VStr bt))
       ∧ exists q eopts, In (EExecute q eopts bt (inr res)) tr).
Proof.
  intros ->.
  destruct (run_request_cases to_dict build execute transform_result
              method bt o _ eq_refl) as [(x & _ & ->)|(o' & Hclean & Hrun)].
  { cbn. split; [|split]; intros; contradiction. }
  destruct (cleaned_stages_facts _ _ _ _ Hclean) as (Hq & Hfacet & Hsort & Hbt).
  rewrite <- Hq.
  assert (forall l : list (event Query Payload Err),
            fst (run_request Query Payload Err to_dict build execute
                   transform_result method bt o) = l ->
            (forall opts out, In (EBuild opts out) l -> opts = esqb o')
            ∧ (forall q opts b out, In (EExecute q opts b out) l ->
                 b = bt ∧ opts = es o' ∧ In (EBuild (esqb o') (inr q)) l)
            ∧ (forall res opts out, In (ETransform res opts out) l ->
                 opts = transform o'
                 ∧ exists q eopts, In (EExecute q eopts bt (inr res)) l) ->
            (forall opts out, In (EBuild opts out) l ->
               opts = esqb o'
               ∧ (py_truthy (getattr (esqb o) "aggs") = false ->
                  opts !! "facet_size" = None))
            ∧ (forall q opts b out, In (EExecute q opts b out) l ->
                 b = bt
                 ∧ In (EBuild (esqb o') (inr q)) l
                 ∧ (py_truthy (getattr (es o) "fetch_all") = true ->
                    opts !! "sort" = None ∧ opts !! "size" = None))
            ∧ (forall res opts out, In (ETransform res opts out) l ->
                 opts !! "biothing_type" = Some (TVal (VStr bt))
                 ∧ exists q eopts, In (EExecute q eopts bt (inr res)) l)) as Hfrom.
  { intros l _ (HB & HE & HT). split; [|split].
    - intros opts out Hin. rewrite (HB _ _ Hin). by split.
    - intros q opts b out Hin. destruct (HE _ _ _ _ Hin) as (-> & -> & Hb).
      by split.
    - intros res opts out Hin. destruct (HT _ _ _ Hin) as (-> & Hx). by split. }
  apply (Hfrom _ eq_refl). clear Hfrom.
  destruct Hrun as [(x & _ & ->)|(q & _ & [(_ & ->)|(_ & Hrun)])];
    [| |destruct Hrun as [(x & _ & ->)|(res & _ & [(_ & ->)|(_ & Hrun)])];
        [| |destruct Hrun as [(x & _ & ->)|(out & _ & ->)]]];
    (split; [|split]);
    intros *; intros Hin; cbn in Hin;
    repeat (destruct Hin as [Hin|Hin]; [inversion Hin; subst|]);
    try contradiction;
    repeat split; cbn; eauto 6.
Qed.

End RunArguments.

Lemma run_request_arguments_witness :
  In (EExecute VNone {["fetch_all" := VBool true]} "gene" (inl "timeout"))
     (fst (Broken.run_request "GET" "gene" ex_options))
  ∧ py_truthy (getattr (es ex_options) "fetch_all") = true
  ∧ ({["fetch_all" := VBool true]} : gmap string pyval) !! "sort" = None.
Proof.
  assert (In (EExecute VNone {["fetch_all" := VBool true]} "gene" (inl "timeout"))
             (fst (Broken.run_request "GET" "gene" ex_options))) as Hin
    by (vm_compute; right; left; reflexivity).
  split; [exact Hin|]. split; [reflexivity|].
  refine (proj1 (proj2 (proj2 (proj1 (proj2
            (run_request_arguments Sample.to_dict Sample.build Broken.execute
               Sample.transform_result "GET" "gene" ex_options _ eq_refl))
            _ _ _ _ Hin)) eq_refl)).
Defined.

Lemma cleaning_raises_witness :
  source_unsearchable (es flag_filter) = true
  ∧ exists x, get_cleaned_options "GET" "gene" flag_filter = Raise x ∧ x = TypeError.
Proof.
  assert (source_unsearchable (es flag_filter) = true) as Hbad by reflexivity.
  split; [exact Hbad|].
  destruct (cleaning_raises "GET" "gene" flag_filter) as [Hty Hiff].
  destruct (proj2 Hiff (or_introl Hbad)) as [x Hx].
  exists x. split; [exact Hx|]. exact (Hty x Hx).
Defined.
